(** * Session manager of the chat application (App component)

    A shallow embedding of the session and message logic of the top-level
    [App] component: the React state cells, the event handlers that mutate
    them ([handleNewChat], [handleSendMessage], the session selector, the
    auth-state listener, the session fetch and [saveSessionToSupabase]), and
    the properties of the session life cycle proved about them.

    Handlers run in a state-and-exception monad over a [World]: the React
    state, a log of the calls made to the outside (persistence, completion
    client, console), the queue of detached promises, and cursors into the
    answers of the outside world (identifiers, clock, auth, database,
    completion client), which are given by an environment [Env]. *)

From Stdlib Require Import List String Ascii ZArith Bool Lia.
Import ListNotations.
Open Scope string_scope.
Open Scope Z_scope.

(** ** Data model (types.ts) *)

Module Role.
Inductive t : Type := user | assistant.
End Role.

Module AppView.
Inductive t : Type := chat | workspace.
End AppView.

Module Message.
Record t : Type := mk
  { id : string;
    role : Role.t;
    content : string;
    timestamp : Z }.
End Message.

Module ChatSession.
Record t : Type := mk
  { id : string;
    title : string;
    messages : list Message.t;
    updatedAt : Z }.
End ChatSession.

Module User.
Record t : Type := mk
  { email : string;
    name : string }.
End User.

(** The auth session handed to the auth listeners; [email] and [full_name]
    may be absent. *)
Record AuthSession : Type := mkAuthSession
  { auth_user_id : string;
    auth_email : option string;
    auth_full_name : option string }.

(** The object passed to [upsert] on the [sessions] table. *)
Record Row : Type := mkRow
  { row_id : string;
    row_user_id : string;
    row_title : string;
    row_messages : list Message.t;
    row_updated_at : Z }.

(** ** JavaScript values used by the handlers *)

(** Strings are sequences of code units; one [ascii] stands for one code
    unit. [clamp_index] is the index normalisation of
    [String.prototype.slice]: a negative index counts from the end, and the
    result is clamped to [0 .. len]. *)
Definition clamp_index (len i : Z) : Z :=
  if i <? 0 then Z.max (len + i) 0 else Z.min i len.

Definition slice (s : string) (start stop : Z) : string :=
  let len := Z.of_nat (String.length s) in
  let from := clamp_index len start in
  let to := clamp_index len stop in
  if to <=? from then EmptyString
  else substring (Z.to_nat from) (Z.to_nat (to - from)) s.

(** [!x] on a value of type [string | null]: [null] and the empty string
    are falsy. *)
Definition falsy (x : option string) : bool :=
  match x with
  | None => true
  | Some s => String.eqb s EmptyString
  end.

(** [x || d] on a value of type [string | undefined]. *)
Definition or_default (x : option string) (d : string) : string :=
  match x with
  | None => d
  | Some s => if String.eqb s EmptyString then d else s
  end.

(** [sessions.find(s => s.id === id)]. *)
Definition find_session (id : string) (l : list ChatSession.t)
  : option ChatSession.t :=
  find (fun s => String.eqb (ChatSession.id s) id) l.

(** ** React state of the component *)

Record AppState : Type := mkAppState
  { user : option User.t;
    sessions : list ChatSession.t;
    currentSessionId : option string;
    isLoading : bool;
    view : AppView.t;
    isSettingsOpen : bool;
    isSidebarOpen : bool }.

(** The values of the [useState] calls on the first render. *)
Definition initialState : AppState :=
  {| user := None;
     sessions := [];
     currentSessionId := None;
     isLoading := false;
     view := AppView.chat;
     isSettingsOpen := false;
     isSidebarOpen := true |}.

(** ** The outside world *)

(** Calls that leave the component, in the order they are made. *)
Inductive Event : Type :=
| EUpsert (row : Row)
| ESelect
| EGemini (history : list Message.t) (content : string)
| EConsoleError (args : list string).

(** A promise that was started and not awaited. *)
Inductive Task : Type :=
| SaveSession (session : ChatSession.t).

(** What the outside answers. Each answer is indexed by the number of
    earlier calls of the same kind, so that no assumption is made on how
    the answers relate to each other. Errors are carried as text. *)
Record Env : Type := mkEnv
  { randomUUID_at : nat -> string;
    now_at : nat -> Z;
    getUser_at : nat -> option string;
    upsert_at : nat -> option string;
    select_at : nat -> string + list ChatSession.t;
    gemini_at : nat -> string + string;
    innerWidth : Z }.

Record World : Type := mkWorld
  { app : AppState;
    trace : list Event;
    pending : list Task;
    n_uuid : nat;
    n_clock : nat;
    n_auth : nat;
    n_upsert : nat;
    n_select : nat;
    n_gemini : nat }.

Definition initialWorld : World :=
  {| app := initialState; trace := []; pending := [];
     n_uuid := 0; n_clock := 0; n_auth := 0; n_upsert := 0;
     n_select := 0; n_gemini := 0 |}.

(** ** The monad of handlers *)

Inductive Outcome (A : Type) : Type :=
| Returned (a : A)
| Thrown (e : string).
Arguments Returned {A} a.
Arguments Thrown {A} e.

Definition M (A : Type) : Type := World -> Outcome A * World.

Definition ret {A} (a : A) : M A := fun w => (Returned a, w).

Definition bind {A B} (m : M A) (k : A -> M B) : M B :=
  fun w =>
    match m w with
    | (Returned a, w1) => k a w1
    | (Thrown e, w1) => (Thrown e, w1)
    end.

Definition throw {A} (e : string) : M A := fun w => (Thrown e, w).

(** [try { body } catch (err) { handler err }]. *)
Definition try_catch {A} (body : M A) (handler : string -> M A) : M A :=
  fun w =>
    match body w with
    | (Returned a, w1) => (Returned a, w1)
    | (Thrown e, w1) => handler e w1
    end.

(** [try { body } finally { fin }]: [fin] runs on both exits and the exit
    of [body] is kept unless [fin] throws. *)
Definition try_finally {A} (body : M A) (fin : M unit) : M A :=
  fun w =>
    match body w with
    | (r, w1) =>
        match fin w1 with
        | (Returned _, w2) => (r, w2)
        | (Thrown e, w2) => (Thrown e, w2)
        end
    end.

Declare Scope handler_scope.
Delimit Scope handler_scope with handler.
Notation "x <- m ;; k" := (bind m (fun x => k))
  (at level 100, m at next level, right associativity) : handler_scope.
Notation "m ;; k" := (bind m (fun _ => k))
  (at level 100, right associativity) : handler_scope.
Open Scope handler_scope.

(** *** State setters

    A setter called with a value replaces the cell; called with a function
    it is applied to the latest value of the cell. Reads, in contrast, see
    the values captured by the render in which the handler was created:
    the handlers below take those as arguments. *)

Definition modify_app (f : AppState -> AppState) : M unit :=
  fun w =>
    (Returned tt,
     {| app := f (app w); trace := trace w; pending := pending w;
        n_uuid := n_uuid w; n_clock := n_clock w; n_auth := n_auth w;
        n_upsert := n_upsert w; n_select := n_select w;
        n_gemini := n_gemini w |}).

Definition setUser (u : option User.t) : M unit :=
  modify_app (fun s =>
    {| user := u; sessions := sessions s;
       currentSessionId := currentSessionId s; isLoading := isLoading s;
       view := view s; isSettingsOpen := isSettingsOpen s;
       isSidebarOpen := isSidebarOpen s |}).

Definition setSessionsWith
  (f : list ChatSession.t -> list ChatSession.t) : M unit :=
  modify_app (fun s =>
    {| user := user s; sessions := f (sessions s);
       currentSessionId := currentSessionId s; isLoading := isLoading s;
       view := view s; isSettingsOpen := isSettingsOpen s;
       isSidebarOpen := isSidebarOpen s |}).

Definition setSessions (l : list ChatSession.t) : M unit :=
  setSessionsWith (fun _ => l).

Definition setCurrentSessionId (c : option string) : M unit :=
  modify_app (fun s =>
    {| user := user s; sessions := sessions s;
       currentSessionId := c; isLoading := isLoading s;
       view := view s; isSettingsOpen := isSettingsOpen s;
       isSidebarOpen := isSidebarOpen s |}).

Definition setIsLoading (b : bool) : M unit :=
  modify_app (fun s =>
    {| user := user s; sessions := sessions s;
       currentSessionId := currentSessionId s; isLoading := b;
       view := view s; isSettingsOpen := isSettingsOpen s;
       isSidebarOpen := isSidebarOpen s |}).

Definition setView (v : AppView.t) : M unit :=
  modify_app (fun s =>
    {| user := user s; sessions := sessions s;
       currentSessionId := currentSessionId s; isLoading := isLoading s;
       view := v; isSettingsOpen := isSettingsOpen s;
       isSidebarOpen := isSidebarOpen s |}).

Definition setIsSidebarOpen (b : bool) : M unit :=
  modify_app (fun s =>
    {| user := user s; sessions := sessions s;
       currentSessionId := currentSessionId s; isLoading := isLoading s;
       view := view s; isSettingsOpen := isSettingsOpen s;
       isSidebarOpen := b |}).

(** *** Calls to the outside *)

Definition log (e : Event) : M unit :=
  fun w =>
    (Returned tt,
     {| app := app w; trace := trace w ++ [e]; pending := pending w;
        n_uuid := n_uuid w; n_clock := n_clock w; n_auth := n_auth w;
        n_upsert := n_upsert w; n_select := n_select w;
        n_gemini := n_gemini w |}).

(** Starting a promise without awaiting it: its body runs after the
    handler that started it has returned. *)
Definition detach (t : Task) : M unit :=
  fun w =>
    (Returned tt,
     {| app := app w; trace := trace w; pending := pending w ++ [t];
        n_uuid := n_uuid w; n_clock := n_clock w; n_auth := n_auth w;
        n_upsert := n_upsert w; n_select := n_select w;
        n_gemini := n_gemini w |}).

Definition consoleError (args : list string) : M unit :=
  log (EConsoleError args).

Section Handlers.

Variable env : Env.

(** [crypto.randomUUID()]. *)
Definition randomUUID : M string :=
  fun w =>
    (Returned (randomUUID_at env (n_uuid w)),
     {| app := app w; trace := trace w; pending := pending w;
        n_uuid := S (n_uuid w); n_clock := n_clock w; n_auth := n_auth w;
        n_upsert := n_upsert w; n_select := n_select w;
        n_gemini := n_gemini w |}).

(** [Date.now()], and [new Date()] read in milliseconds. *)
Definition dateNow : M Z :=
  fun w =>
    (Returned (now_at env (n_clock w)),
     {| app := app w; trace := trace w; pending := pending w;
        n_uuid := n_uuid w; n_clock := S (n_clock w); n_auth := n_auth w;
        n_upsert := n_upsert w; n_select := n_select w;
        n_gemini := n_gemini w |}).

(** [supabase.auth.getUser()], reduced to the identity of the user. *)
Definition getUser : M (option string) :=
  fun w =>
    (Returned (getUser_at env (n_auth w)),
     {| app := app w; trace := trace w; pending := pending w;
        n_uuid := n_uuid w; n_clock := n_clock w; n_auth := S (n_auth w);
        n_upsert := n_upsert w; n_select := n_select w;
        n_gemini := n_gemini w |}).

(** [supabase.from('sessions').upsert(row)]; the answer is its [error]
    field. *)
Definition upsert (row : Row) : M (option string) :=
  fun w =>
    (Returned (upsert_at env (n_upsert w)),
     {| app := app w; trace := trace w ++ [EUpsert row];
        pending := pending w;
        n_uuid := n_uuid w; n_clock := n_clock w; n_auth := n_auth w;
        n_upsert := S (n_upsert w); n_select := n_select w;
        n_gemini := n_gemini w |}).

(** [supabase.from('sessions').select('*').order('updated_at', ...)];
    the answer is [inl error] or [inr data], the rows read as sessions. *)
Definition selectSessions : M (string + list ChatSession.t) :=
  fun w =>
    (Returned (select_at env (n_select w)),
     {| app := app w; trace := trace w ++ [ESelect];
        pending := pending w;
        n_uuid := n_uuid w; n_clock := n_clock w; n_auth := n_auth w;
        n_upsert := n_upsert w; n_select := S (n_select w);
        n_gemini := n_gemini w |}).

(** [sendMessageToGemini(history, content)]: resolves with the text or
    rejects. *)
Definition sendMessageToGemini
  (history : list Message.t) (content : string) : M string :=
  fun w =>
    let w1 :=
      {| app := app w; trace := trace w ++ [EGemini history content];
         pending := pending w;
         n_uuid := n_uuid w; n_clock := n_clock w; n_auth := n_auth w;
         n_upsert := n_upsert w; n_select := n_select w;
         n_gemini := S (n_gemini w) |} in
    match gemini_at env (n_gemini w) with
    | inl err => (Thrown err, w1)
    | inr text => (Returned text, w1)
    end.

(** ** Handlers of the component *)

(** The listener given to [supabase.auth.onAuthStateChange]. *)
Definition onAuthStateChange (session : option AuthSession) : M unit :=
  match session with
  | Some s =>
      setUser (Some {| User.email := or_default (auth_email s) EmptyString;
                       User.name := or_default (auth_full_name s) "User" |})
  | None =>
      setUser None ;;
      setSessions [] ;;
      setCurrentSessionId None
  end.

(** [fetchSessions], with the [currentSessionId] its effect captured. *)
Definition fetchSessions (currentSessionId : option string) : M unit :=
  r <- selectSessions ;;
  match r with
  | inl error => consoleError ["Error fetching sessions:"; error]
  | inr data =>
      setSessions data ;;
      if (0 <? List.length data)%nat && falsy currentSessionId then
        match nth_error data 0 with
        | Some d => setCurrentSessionId (Some (ChatSession.id d))
        | None => throw "TypeError"
        end
      else ret tt
  end.

(** The effect that depends on [user]. *)
Definition userEffect
  (user : option User.t) (currentSessionId : option string) : M unit :=
  match user with
  | None => ret tt
  | Some _ => fetchSessions currentSessionId
  end.

Definition saveSessionToSupabase (session : ChatSession.t) : M unit :=
  currentUser <- getUser ;;
  match currentUser with
  | None => ret tt
  | Some uid =>
      try_catch
        (updated_at <- dateNow ;;
         error <- upsert {| row_id := ChatSession.id session;
                            row_user_id := uid;
                            row_title := ChatSession.title session;
                            row_messages := ChatSession.messages session;
                            row_updated_at := updated_at |} ;;
         match error with
         | Some e => throw e
         | None => ret tt
         end)
        (fun err => consoleError ["Error saving to Supabase:"; err])
  end.

Definition closeSidebarOnSmallScreen : M unit :=
  if innerWidth env <? 768 then setIsSidebarOpen false else ret tt.

Definition handleNewChat : M unit :=
  setView AppView.chat ;;
  id <- randomUUID ;;
  updatedAt <- dateNow ;;
  let newSession :=
    {| ChatSession.id := id;
       ChatSession.title := "New Chat";
       ChatSession.messages := [];
       ChatSession.updatedAt := updatedAt |} in
  setCurrentSessionId (Some id) ;;
  setSessionsWith (fun prev => newSession :: prev) ;;
  detach (SaveSession newSession) ;;
  closeSidebarOnSmallScreen.

(** The [onSelectSession] callback given to the sidebar. *)
Definition onSelectSession (id : string) : M unit :=
  setView AppView.chat ;;
  setCurrentSessionId (Some id) ;;
  closeSidebarOnSmallScreen.

(** The branch of [handleSendMessage] taken when no session is current:
    it creates the session and yields its identity. *)
Definition createForMessage
  (sessions : list ChatSession.t) (content : string) : M string :=
  activeSessionId <- randomUUID ;;
  updatedAt <- dateNow ;;
  let newSession :=
    {| ChatSession.id := activeSessionId;
       ChatSession.title := slice content 0 30 ++ "...";
       ChatSession.messages := [];
       ChatSession.updatedAt := updatedAt |} in
  setSessions (newSession :: sessions) ;;
  setCurrentSessionId (Some activeSessionId) ;;
  saveSessionToSupabase newSession ;;
  ret activeSessionId.

(** [s => s.id === activeSessionId ? replacement : s]. *)
Definition replace_session
  (activeSessionId : string) (replacement s : ChatSession.t)
  : ChatSession.t :=
  if String.eqb (ChatSession.id s) activeSessionId then replacement else s.

(** [handleSendMessage], with the [sessions] and [currentSessionId] of
    the render that created it. *)
Definition handleSendMessage
  (sessions : list ChatSession.t) (currentSessionId : option string)
  (content : string) : M unit :=
  activeSessionId <-
    match currentSessionId with
    | Some id =>
        if String.eqb id EmptyString then createForMessage sessions content
        else ret id
    | None => createForMessage sessions content
    end ;;
  userMessageId <- randomUUID ;;
  userTimestamp <- dateNow ;;
  let userMessage :=
    {| Message.id := userMessageId;
       Message.role := Role.user;
       Message.content := content;
       Message.timestamp := userTimestamp |} in
  targetSession <-
    match find_session activeSessionId sessions with
    | Some s => ret s
    | None =>
        updatedAt <- dateNow ;;
        ret {| ChatSession.id := activeSessionId;
               ChatSession.title := slice content 0 30;
               ChatSession.messages := [];
               ChatSession.updatedAt := updatedAt |}
    end ;;
  updatedAt <- dateNow ;;
  let updatedSession :=
    {| ChatSession.id := ChatSession.id targetSession;
       ChatSession.title :=
         if (List.length (ChatSession.messages targetSession) =? 0)%nat
         then slice content 0 30
         else ChatSession.title targetSession;
       ChatSession.messages :=
         ChatSession.messages targetSession ++ [userMessage];
       ChatSession.updatedAt := updatedAt |} in
  setSessionsWith (map (replace_session activeSessionId updatedSession)) ;;
  setIsLoading true ;;
  try_finally
    (try_catch
       (aiResponseText <-
          sendMessageToGemini (ChatSession.messages updatedSession) content ;;
        aiMessageId <- randomUUID ;;
        aiTimestamp <- dateNow ;;
        let aiMessage :=
          {| Message.id := aiMessageId;
             Message.role := Role.assistant;
             Message.content := aiResponseText;
             Message.timestamp := aiTimestamp |} in
        finalUpdatedAt <- dateNow ;;
        let finalSession :=
          {| ChatSession.id := ChatSession.id updatedSession;
             ChatSession.title := ChatSession.title updatedSession;
             ChatSession.messages :=
               ChatSession.messages updatedSession ++ [aiMessage];
             ChatSession.updatedAt := finalUpdatedAt |} in
        setSessionsWith (map (replace_session activeSessionId finalSession)) ;;
        saveSessionToSupabase finalSession)
       (fun err => consoleError [err]))
    (setIsLoading false).

(** ** Operations of the session manager

    Each operation is the handler of the latest render: what it captured
    is the state it is called in. *)

Definition createSession : M unit := handleNewChat.

Definition selectSession (id : string) : M unit := onSelectSession id.

Definition sendMessage (content : string) : M unit :=
  fun w =>
    handleSendMessage (sessions (app w)) (currentSessionId (app w))
      content w.

Definition signedIn (session : AuthSession) : M unit :=
  fun w =>
    match onAuthStateChange (Some session) w with
    | (Returned _, w1) =>
        userEffect (user (app w1)) (currentSessionId (app w1)) w1
    | (Thrown e, w1) => (Thrown e, w1)
    end.

Definition signedOut : M unit := onAuthStateChange None.

(** The body of a detached promise, run once the event loop reaches it. *)
Definition run_task (t : Task) : M unit :=
  match t with
  | SaveSession s => saveSessionToSupabase s
  end.

End Handlers.

(** ** Observations on worlds and traces *)

(** The calls logged between two worlds of one run. *)
Definition emitted (w w' : World) : list Event :=
  skipn (List.length (trace w)) (trace w').

(** The rows written to the persistence client. *)
Definition upserts (tr : list Event) : list Row :=
  flat_map (fun e => match e with EUpsert r => [r] | _ => [] end) tr.

(** The arguments of the calls to the completion client. *)
Definition gemini_calls (tr : list Event) : list (list Message.t * string) :=
  flat_map (fun e => match e with EGemini h c => [(h, c)] | _ => [] end) tr.

Definition is_assistant (m : Message.t) : bool :=
  match Message.role m with
  | Role.assistant => true
  | Role.user => false
  end.

Definition assistant_messages (l : list Message.t) : list Message.t :=
  filter is_assistant l.

(** The message sequence of the session of identity [id], empty when the
    list has no such session. *)
Definition messages_of (id : string) (l : list ChatSession.t)
  : list Message.t :=
  match find_session id l with
  | Some s => ChatSession.messages s
  | None => []
  end.


(** The session a [sendMessage] works on: the current one, or the one it
    creates, whose identity is the next answer of [crypto.randomUUID]. *)
Definition targetId (env : Env) (w : World) : string :=
  if falsy (currentSessionId (app w))
  then randomUUID_at env (n_uuid w)
  else or_default (currentSessionId (app w)) EmptyString.

(** The selection is coherent: no session is current, or the current one
    is in the list. *)
Definition selection_in_list (st : AppState) : Prop :=
  falsy (currentSessionId st) = true
  \/ find_session (or_default (currentSessionId st) EmptyString)
       (sessions st) <> None.

(** The title the specification announces for a first message: the content
    itself up to 30 characters, its leading 30 characters and an ellipsis
    beyond. *)
Definition title_per_spec (content : string) : string :=
  if (String.length content <=? 30)%nat then content
  else substring 0 30 content ++ "...".

(** The contract the specification gives for every session creation, as a
    relation between the world before and after: a session with the next
    random identity, no message, the placeholder title and the next clock
    reading is put in front of the list and made current, and its save is
    started without being awaited (no call to the persistence client is
    made by the creation itself). *)
Definition creation_per_spec (env : Env) (w w' : World) : Prop :=
  exists n : ChatSession.t,
    ChatSession.id n = randomUUID_at env (n_uuid w)
    /\ ChatSession.messages n = []
    /\ ChatSession.title n = "New Chat"
    /\ ChatSession.updatedAt n = now_at env (n_clock w)
    /\ sessions (app w') = n :: sessions (app w)
    /\ currentSessionId (app w') = Some (ChatSession.id n)
    /\ pending w' = (pending w ++ [SaveSession n])%list
    /\ upserts (emitted w w') = [].

(** The input the specification gives for the completion client: one call,
    with the message history of the target session before the new user
    turn, and the new content. *)
Definition completion_input_per_spec
  (env : Env) (content : string) (w : World) : Prop :=
  gemini_calls (emitted w (snd (sendMessage env content w))) =
  [(messages_of (targetId env w) (sessions (app w)), content)].

(** *** Sample environments and inputs *)

(** A selection left dangling: the current identity names no session of
    the list (the list was replaced by a fetch after the selection was
    made). *)
Definition world_dangling : World :=
  {| app := {| user := None;
               sessions := [];
               currentSessionId := Some "gone";
               isLoading := false;
               view := AppView.chat;
               isSettingsOpen := false;
               isSidebarOpen := true |};
     trace := []; pending := [];
     n_uuid := 0; n_clock := 0; n_auth := 0; n_upsert := 0;
     n_select := 0; n_gemini := 0 |}.


Definition sample_uuid (n : nat) : string :=
  match n with
  | O => "id-0"
  | 1%nat => "id-1"
  | 2%nat => "id-2"
  | 3%nat => "id-3"
  | _ => "id-n"
  end.

(** Signed in, every write accepted, the completion client answers. *)
Definition env_answers : Env :=
  {| randomUUID_at := sample_uuid;
     now_at := fun n => 1000 + Z.of_nat n;
     getUser_at := fun _ => Some "owner";
     upsert_at := fun _ => None;
     select_at := fun _ => inr [];
     gemini_at := fun _ => inr "package main";
     innerWidth := 1280 |}.

(** The same with a completion client that rejects. *)
Definition env_rejects : Env :=
  {| randomUUID_at := sample_uuid;
     now_at := fun n => 1000 + Z.of_nat n;
     getUser_at := fun _ => Some "owner";
     upsert_at := fun _ => None;
     select_at := fun _ => inr [];
     gemini_at := fun _ => inl "503";
     innerWidth := 1280 |}.

Definition short_content : string := "Write a Go HTTP server".

Definition long_content : string :=
  "Write a Go HTTP server with TLS and logs".

Definition sample_question : Message.t :=
  {| Message.id := "m-1"; Message.role := Role.user;
     Message.content := "hello"; Message.timestamp := 10 |}.

Definition sample_answer : Message.t :=
  {| Message.id := "m-2"; Message.role := Role.assistant;
     Message.content := "hi"; Message.timestamp := 11 |}.

Definition session_A : ChatSession.t :=
  {| ChatSession.id := "A"; ChatSession.title := "hello";
     ChatSession.messages := [sample_question; sample_answer];
     ChatSession.updatedAt := 12 |}.

Definition session_B : ChatSession.t :=
  {| ChatSession.id := "B"; ChatSession.title := "New Chat";
     ChatSession.messages := []; ChatSession.updatedAt := 13 |}.

(** Two sessions, [A] current. *)
Definition world_AB : World :=
  {| app := {| user := Some {| User.email := "o@example.org";
                               User.name := "Owner" |};
               sessions := [session_A; session_B];
               currentSessionId := Some "A";
               isLoading := false;
               view := AppView.chat;
               isSettingsOpen := false;
               isSidebarOpen := true |};
     trace := []; pending := [];
     n_uuid := 0; n_clock := 0; n_auth := 0; n_upsert := 0;
     n_select := 0; n_gemini := 0 |}.

(** ** The other handlers of the component *)

Definition setIsSettingsOpen (b : bool) : M unit :=
  modify_app (fun s =>
    {| user := user s; sessions := sessions s;
       currentSessionId := currentSessionId s; isLoading := isLoading s;
       view := view s; isSettingsOpen := b;
       isSidebarOpen := isSidebarOpen s |}).

(** [handleResize], run on mount and on every [resize] event. *)
Definition handleResize (env : Env) : M unit :=
  if innerWidth env <? 768 then setIsSidebarOpen false
  else setIsSidebarOpen true.

(** The continuation given to [supabase.auth.getSession()] on mount. *)
Definition onInitialSession (session : option AuthSession) : M unit :=
  match session with
  | Some s =>
      setUser (Some {| User.email := or_default (auth_email s) EmptyString;
                       User.name := or_default (auth_full_name s) "User" |})
  | None => ret tt
  end.

(** The [onOpenWorkspace] callback given to the sidebar. *)
Definition onOpenWorkspace (env : Env) : M unit :=
  setView AppView.workspace ;;
  closeSidebarOnSmallScreen env.

(** The [onBack] callback given to the workspace. *)
Definition onBack : M unit := setView AppView.chat.

(** The [onOpenSettings] and [onClose] callbacks of the settings modal. *)
Definition onOpenSettings : M unit := setIsSettingsOpen true.

Definition onCloseSettings : M unit := setIsSettingsOpen false.

(** The toggle of the sidebar, with the [isSidebarOpen] of its render. *)
Definition onToggle (isSidebarOpen : bool) : M unit :=
  setIsSidebarOpen (negb isSidebarOpen).

(** *** The event loop

    The detached promises are run in the order they were started, once the
    handler that started them is over. *)
Fixpoint run_tasks (env : Env) (l : list Task) : M unit :=
  match l with
  | [] => ret tt
  | t :: rest => run_task env t ;; run_tasks env rest
  end.

Definition settle (env : Env) : M unit :=
  fun w =>
    run_tasks env (pending w)
      {| app := app w; trace := trace w; pending := [];
         n_uuid := n_uuid w; n_clock := n_clock w; n_auth := n_auth w;
         n_upsert := n_upsert w; n_select := n_select w;
         n_gemini := n_gemini w |}.

(** ** What the component renders *)

(** [sessions.find(s => s.id === currentSessionId)]; no session has the
    identity [null]. *)
Definition currentSession (st : AppState) : option ChatSession.t :=
  match currentSessionId st with
  | Some c => find_session c (sessions st)
  | None => None
  end.

(** The part of the page chosen by the tests on [user], [view] and
    [currentSession]. *)
Inductive Screen : Type :=
| AuthPageScreen
| WorkspaceScreen
| WelcomeScreen
| ConversationScreen.

Definition screen (st : AppState) : Screen :=
  match user st with
  | None => AuthPageScreen
  | Some _ =>
      match view st with
      | AppView.workspace => WorkspaceScreen
      | AppView.chat =>
          match currentSession st with
          | None => WelcomeScreen
          | Some s =>
              if (List.length (ChatSession.messages s) =? 0)%nat
              then WelcomeScreen
              else ConversationScreen
          end
      end
  end.

(** [currentSession?.title || 'CodeGPT Assistant']. *)
Definition headerTitle (st : AppState) : string :=
  or_default (option_map ChatSession.title (currentSession st))
    "CodeGPT Assistant".

(** The [disabled] property of the chat input. *)
Definition inputDisabled (st : AppState) : bool := isLoading st.

(** The messages of one round trip: the user message with the content,
    followed by the assistant message with the reply when the completion
    client answered. *)
Definition round_trip (content : string) (answer : string + string)
  (l : list Message.t) : Prop :=
  match answer with
  | inr text =>
      exists u a : Message.t,
        l = [u; a]
        /\ Message.role u = Role.user
        /\ Message.content u = content
        /\ Message.role a = Role.assistant
        /\ Message.content a = text
  | inl _ =>
      exists u : Message.t,
        l = [u]
        /\ Message.role u = Role.user
        /\ Message.content u = content
  end.

(** A captured list that is behind the live one: the session [A] without
    its answer. *)
Definition stale_sessions : list ChatSession.t :=
  [{| ChatSession.id := "A"; ChatSession.title := "hello";
      ChatSession.messages := [sample_question];
      ChatSession.updatedAt := 11 |}].




(** ** Running a handler symbolically *)

Ltac unfold_handlers :=
  cbv beta iota zeta delta
    [sendMessage handleSendMessage createForMessage saveSessionToSupabase
     handleNewChat createSession onSelectSession selectSession
     closeSidebarOnSmallScreen onAuthStateChange signedOut signedIn
     userEffect fetchSessions run_task
     bind ret throw try_catch try_finally modify_app setUser setSessionsWith
     setSessions setCurrentSessionId setIsLoading setView setIsSidebarOpen
     log detach consoleError randomUUID dateNow getUser upsert
     selectSessions sendMessageToGemini].

(** The same, keeping [saveSessionToSupabase] folded. *)
Ltac unfold_caller :=
  cbv beta iota zeta delta
    [sendMessage handleSendMessage createForMessage
     handleNewChat createSession closeSidebarOnSmallScreen
     bind ret throw try_catch try_finally modify_app setUser setSessionsWith
     setSessions setCurrentSessionId setIsLoading setView setIsSidebarOpen
     log detach consoleError randomUUID dateNow sendMessageToGemini].

Ltac project :=
  cbv beta iota zeta;
  cbn [app sessions currentSessionId user isLoading view isSettingsOpen
       isSidebarOpen trace pending n_uuid n_clock n_auth n_upsert n_select
       n_gemini fst snd
       ChatSession.id ChatSession.title ChatSession.messages
       ChatSession.updatedAt
       Message.id Message.role Message.content Message.timestamp
       List.length Nat.eqb].

(** One case per answer of the outside that the handler inspects. *)
Ltac case_answers :=
  repeat
    (match goal with
     | |- context [match getUser_at ?e ?n with _ => _ end] =>
         destruct (getUser_at e n) eqn:?
     | |- context [match upsert_at ?e ?n with _ => _ end] =>
         destruct (upsert_at e n) eqn:?
     | |- context [match select_at ?e ?n with _ => _ end] =>
         destruct (select_at e n) eqn:?
     | |- context [match gemini_at ?e ?n with _ => _ end] =>
         destruct (gemini_at e n) eqn:?
     | |- context [if innerWidth ?e <? 768 then _ else _] =>
         destruct (innerWidth e <? 768) eqn:?
     end; project).

Ltac open_world w :=
  destruct w as [[? ? ? ? ? ? ?] ? ? ? ? ? ? ? ?]; project.

(** The log of a run, once the log before it is split off. *)
Ltac read_emitted :=
  unfold emitted; project;
  repeat rewrite <- app_assoc;
  first [ rewrite skipn_all
        | rewrite skipn_app, skipn_all, Nat.sub_diag; cbn [skipn app] ].

(** ** Basic facts *)

Lemma emitted_same (w : World) : emitted w w = [].
Proof.
  unfold emitted. apply skipn_all.
Qed.

Lemma find_session_id (i : string) (l : list ChatSession.t)
  (s : ChatSession.t) :
  find_session i l = Some s -> ChatSession.id s = i.
Proof.
  unfold find_session. intros H.
  apply find_some in H. destruct H as [_ H].
  now apply String.eqb_eq.
Qed.

Lemma find_session_replace_same (i : string) (r : ChatSession.t)
  (l : list ChatSession.t) :
  ChatSession.id r = i ->
  find_session i (map (replace_session i r) l) =
  match find_session i l with Some _ => Some r | None => None end.
Proof.
  intros Hr. unfold find_session, replace_session.
  induction l as [|s l IH]; simpl; auto.
  destruct (String.eqb (ChatSession.id s) i) eqn:E.
  - rewrite Hr, String.eqb_refl. reflexivity.
  - rewrite E. exact IH.
Qed.

Lemma find_session_replace_other (i j : string) (r : ChatSession.t)
  (l : list ChatSession.t) :
  ChatSession.id r = i -> j <> i ->
  find_session j (map (replace_session i r) l) = find_session j l.
Proof.
  intros Hr Hj. unfold find_session, replace_session.
  induction l as [|s l IH]; simpl; auto.
  destruct (String.eqb (ChatSession.id s) i) eqn:E.
  - apply String.eqb_eq in E.
    assert (Hn : String.eqb (ChatSession.id r) j = false)
      by (apply String.eqb_neq; congruence).
    assert (Hs : String.eqb (ChatSession.id s) j = false)
      by (apply String.eqb_neq; congruence).
    rewrite Hn, Hs. exact IH.
  - destruct (String.eqb (ChatSession.id s) j); auto.
Qed.

Lemma replace_session_absent (i : string) (r : ChatSession.t)
  (l : list ChatSession.t) :
  find_session i l = None -> map (replace_session i r) l = l.
Proof.
  unfold find_session, replace_session.
  induction l as [|s l IH]; simpl; auto.
  intros H.
  destruct (String.eqb (ChatSession.id s) i); [discriminate|].
  now rewrite IH.
Qed.

(** *** [slice(0, 30)] *)

Lemma substring_0_all (n : nat) (s : string) :
  (String.length s <= n)%nat -> substring 0 n s = s.
Proof.
  revert n. induction s as [|c s IH]; intros [|n] H; simpl in *; auto.
  - lia.
  - f_equal. apply IH. lia.
Qed.

Lemma substring_0_length (n : nat) (s : string) :
  (n <= String.length s)%nat -> String.length (substring 0 n s) = n.
Proof.
  revert n. induction s as [|c s IH]; intros [|n] H; simpl in *; auto.
  - lia.
  - f_equal. apply IH. lia.
Qed.

Lemma substring_0_prefix (n : nat) (s : string) :
  prefix (substring 0 n s) s = true.
Proof.
  revert n. induction s as [|c s IH]; intros [|n]; simpl; auto.
  destruct (ascii_dec c c); [apply IH | congruence].
Qed.

Lemma slice_0_30 (s : string) : slice s 0 30 = substring 0 30 s.
Proof.
  unfold slice, clamp_index.
  change (0 <? 0) with false. change (30 <? 0) with false. cbv iota.
  rewrite (Z.min_l 0) by lia.
  destruct (Z.min 30 (Z.of_nat (String.length s)) <=? 0) eqn:E.
  - apply Z.leb_le in E.
    assert (String.length s = 0%nat) by lia.
    destruct s; [reflexivity | discriminate].
  - apply Z.leb_gt in E. rewrite Z.sub_0_r. change (Z.to_nat 0) with 0%nat.
    destruct (Z.le_ge_cases 30 (Z.of_nat (String.length s))) as [L|L].
    + rewrite Z.min_l by lia. reflexivity.
    + rewrite Z.min_r by lia. rewrite Nat2Z.id.
      rewrite !substring_0_all; auto; lia.
Qed.

Lemma slice_0_30_short (s : string) :
  (String.length s <= 30)%nat -> slice s 0 30 = s.
Proof.
  intros H. rewrite slice_0_30. now apply substring_0_all.
Qed.

Lemma slice_0_30_long (s : string) :
  (30 < String.length s)%nat ->
  String.length (slice s 0 30) = 30%nat /\ prefix (slice s 0 30) s = true.
Proof.
  intros H. rewrite slice_0_30. split.
  - apply substring_0_length. lia.
  - apply substring_0_prefix.
Qed.

(** ** Selection, sign-out and the session fetch *)

(** C5. [selectSession(id)] makes [id] the current session and leaves the
    session list as it is; in particular the message sequence of every
    session is unchanged. *)
Theorem selectSession_frame (env : Env) (id : string) (w : World) :
  let w' := snd (selectSession env id w) in
  fst (selectSession env id w) = Returned tt
  /\ currentSessionId (app w') = Some id
  /\ sessions (app w') = sessions (app w)
  /\ (forall i : string,
        messages_of i (sessions (app w')) = messages_of i (sessions (app w)))
  /\ upserts (emitted w w') = []
  /\ pending w' = pending w.
Proof.
  open_world w. unfold_handlers. case_answers.
  all: repeat split; auto; read_emitted; reflexivity.
Qed.

(** C6. On the transition to signed-out the listener empties the session
    list and clears the current-session selection (and the user), whatever
    the state it runs in: loading or not, with or without detached saves. *)
Theorem signedOut_clears (w : World) :
  let w' := snd (signedOut w) in
  fst (signedOut w) = Returned tt
  /\ sessions (app w') = []
  /\ currentSessionId (app w') = None
  /\ user (app w') = None.
Proof.
  open_world w. unfold_handlers. project. repeat split.
Qed.

(** C9. On authentication the session list is fetched. When the fetch
    succeeds the list becomes the fetched one, and if that is not empty and
    no session is selected, its first session becomes current; otherwise
    the selection is kept. When the fetch fails, list and selection are
    unchanged. *)
Theorem signedIn_fetch (env : Env) (session : AuthSession) (w : World) :
  let w' := snd (signedIn env session w) in
  fst (signedIn env session w) = Returned tt
  /\ match select_at env (n_select w) with
     | inr data =>
         sessions (app w') = data
         /\ currentSessionId (app w') =
            match data with
            | first :: _ =>
                if falsy (currentSessionId (app w))
                then Some (ChatSession.id first)
                else currentSessionId (app w)
            | [] => currentSessionId (app w)
            end
     | inl _ =>
         sessions (app w') = sessions (app w)
         /\ currentSessionId (app w') = currentSessionId (app w)
     end.
Proof.
  open_world w. unfold_handlers. project. case_answers.
  - repeat split.
  - match goal with |- context [List.length ?d] => destruct d as [|first rest] end.
    + repeat split.
    + cbn [List.length Nat.ltb Nat.leb andb nth_error].
      match goal with |- context [falsy ?c] => destruct (falsy c) end;
        repeat split.
Qed.

Lemma find_session_head (i : string) (n : ChatSession.t)
  (l : list ChatSession.t) :
  ChatSession.id n = i -> find_session i (n :: l) = Some n.
Proof.
  intros H. unfold find_session. cbn [find].
  now rewrite H, String.eqb_refl.
Qed.

Lemma find_session_skip (i : string) (n : ChatSession.t)
  (l : list ChatSession.t) :
  ChatSession.id n <> i -> find_session i (n :: l) = find_session i l.
Proof.
  intros H. unfold find_session. cbn [find].
  apply String.eqb_neq in H. now rewrite H.
Qed.

(** *** The save

    [saveSessionToSupabase] always resolves: it leaves the React state and
    the detached promises alone, asks for the user once, and writes at most
    one row, the session it was given. *)
Lemma saveSessionToSupabase_run (env : Env) (s : ChatSession.t) (w : World) :
  exists (evs : list Event) (k j : nat),
    saveSessionToSupabase env s w =
    (Returned tt,
     {| app := app w; trace := trace w ++ evs; pending := pending w;
        n_uuid := n_uuid w; n_clock := k + n_clock w;
        n_auth := S (n_auth w); n_upsert := j + n_upsert w;
        n_select := n_select w; n_gemini := n_gemini w |})
    /\ upserts evs =
       match getUser_at env (n_auth w) with
       | Some uid =>
           [{| row_id := ChatSession.id s;
               row_user_id := uid;
               row_title := ChatSession.title s;
               row_messages := ChatSession.messages s;
               row_updated_at := now_at env (n_clock w) |}]
       | None => []
       end
    /\ gemini_calls evs = [].
Proof.
  destruct w as [a tr pd nu nc na nup ns ng].
  unfold_handlers. project.
  destruct (getUser_at env na) as [uid|]; project.
  - destruct (upsert_at env nup) as [e|]; project.
    + eexists [_; _], 1%nat, 1%nat.
      rewrite <- app_assoc. repeat split.
    + eexists [_], 1%nat, 1%nat. repeat split.
  - exists [], 0%nat, 0%nat. rewrite app_nil_r. repeat split.
Qed.

Lemma upserts_app (l r : list Event) :
  upserts (l ++ r) = (upserts l ++ upserts r)%list.
Proof. apply flat_map_app. Qed.

Lemma gemini_calls_app (l r : list Event) :
  gemini_calls (l ++ r) = (gemini_calls l ++ gemini_calls r)%list.
Proof. apply flat_map_app. Qed.

(** Replacing an awaited save by what the lemma above says of it. *)
Ltac step_save :=
  match goal with
  | |- context [saveSessionToSupabase ?e ?s ?W] =>
      let evs := fresh "evs" in
      let k := fresh "k" in
      let j := fresh "j" in
      let E := fresh "Esave" in
      let U := fresh "Uevs" in
      let G := fresh "Gevs" in
      destruct (saveSessionToSupabase_run e s W) as (evs & k & j & E & U & G);
      rewrite E; clear E;
      cbn [n_auth n_clock ChatSession.id ChatSession.title
           ChatSession.messages] in U;
      project
  end.

(** The cases of a [sendMessage]: a current session or none, the target
    found in the captured list or not, the completion client answering or
    rejecting; the awaited saves are stepped over. *)
Ltac run_send :=
  unfold_caller; project;
  repeat
    (match goal with
     | c : option string |- _ => destruct c
     | |- context [if String.eqb ?i EmptyString then _ else _] =>
         destruct (String.eqb i EmptyString) eqn:?
     | |- context [saveSessionToSupabase _ _ _] => step_save
     | |- context [match find_session ?i ?l with _ => _ end] =>
         is_var l; destruct (find_session i l) eqn:?
     | |- context [match gemini_at ?e ?n with _ => _ end] =>
         destruct (gemini_at e n) eqn:?
     end; project).

(** Looking a session up in the list a [sendMessage] leaves behind. *)
Ltac name_found :=
  repeat
    (match goal with
     | H : find_session ?i ?l = Some ?t |- _ =>
         is_var t;
         let E := fresh "E" in
         pose proof (find_session_id i l t H) as E;
         destruct t; cbn [ChatSession.id] in E; project; try subst
     end).

Ltac lookup :=
  repeat
    (first
       [ rewrite find_session_replace_same by reflexivity
       | rewrite find_session_head by reflexivity
       | match goal with
         | H : find_session ?i ?l = _ |- context [find_session ?i ?l] =>
             rewrite H
         end ]);
  project.

(** The world [handleNewChat] leaves behind. *)
Lemma handleNewChat_run (env : Env) (w : World) :
  let newSession :=
    {| ChatSession.id := randomUUID_at env (n_uuid w);
       ChatSession.title := "New Chat";
       ChatSession.messages := [];
       ChatSession.updatedAt := now_at env (n_clock w) |} in
  handleNewChat env w =
  (Returned tt,
   {| app :=
        {| user := user (app w);
           sessions := newSession :: sessions (app w);
           currentSessionId := Some (randomUUID_at env (n_uuid w));
           isLoading := isLoading (app w);
           view := AppView.chat;
           isSettingsOpen := isSettingsOpen (app w);
           isSidebarOpen :=
             if innerWidth env <? 768 then false
             else isSidebarOpen (app w) |};
      trace := trace w;
      pending := pending w ++ [SaveSession newSession];
      n_uuid := S (n_uuid w); n_clock := S (n_clock w);
      n_auth := n_auth w; n_upsert := n_upsert w;
      n_select := n_select w; n_gemini := n_gemini w |}).
Proof.
  open_world w. unfold handleNewChat, closeSidebarOnSmallScreen.
  destruct (innerWidth env <? 768); reflexivity.
Qed.

(** ** Coherence of the selection *)

Lemma selection_in_list_initial : selection_in_list initialState.
Proof. left. reflexivity. Qed.

Lemma createSession_selection (env : Env) (w : World) :
  selection_in_list (app (snd (createSession env w))).
Proof.
  unfold createSession. rewrite handleNewChat_run.
  unfold selection_in_list, falsy, or_default. project.
  destruct (String.eqb (randomUUID_at env (n_uuid w)) EmptyString);
    [now left | right].
  rewrite find_session_head by reflexivity. discriminate.
Qed.

Lemma signedOut_selection (w : World) :
  selection_in_list (app (snd (signedOut w))).
Proof. left. reflexivity. Qed.

Lemma selectSession_selection (env : Env) (id : string) (w : World) :
  find_session id (sessions (app w)) <> None ->
  selection_in_list (app (snd (selectSession env id w))).
Proof.
  intros H. open_world w. unfold_handlers. case_answers.
  all: unfold selection_in_list, falsy, or_default; project.
  all: destruct (String.eqb id EmptyString); [now left | now right].
Qed.

(** A fetch can break it: the list is replaced, the selection is kept when
    one was made. A [sendMessage] in such a state changes no session. *)
Example sendMessage_dangling_selection :
  ~ selection_in_list (app world_dangling)
  /\ sessions (app (snd (sendMessage env_answers "next" world_dangling))) =
     [].
Proof.
  split; [|reflexivity].
  intros [H|H]; [discriminate H | now apply H].
Qed.

(** ** Sending a message *)


(** C1 (amended). With no current session, the session created by
    [sendMessage] ends with the title [content.slice(0, 30)]: the content
    itself when it has at most 30 characters, and otherwise its leading 30
    characters, with nothing appended. The identity drawn for the session
    is assumed not to be in use. *)
Theorem sendMessage_first_title (env : Env) (content : string) (w : World) :
  let i := randomUUID_at env (n_uuid w) in
  let w' := snd (sendMessage env content w) in
  falsy (currentSessionId (app w)) = true ->
  find_session i (sessions (app w)) = None ->
  exists s : ChatSession.t,
    find_session i (sessions (app w')) = Some s
    /\ currentSessionId (app w') = Some i
    /\ ChatSession.title s = slice content 0 30
    /\ ((String.length content <= 30)%nat -> ChatSession.title s = content)
    /\ ((30 < String.length content)%nat ->
        String.length (ChatSession.title s) = 30%nat
        /\ prefix (ChatSession.title s) content = true).
Proof.
  open_world w. unfold falsy. project. run_send.
  all: intros Hcur Hfresh; try discriminate Hcur; try discriminate Hfresh.
  all: lookup; eexists; split; [reflexivity|]; project.
  all: repeat split; auto using slice_0_30_short; apply slice_0_30_long; auto.
Qed.

Lemma assistant_messages_user (l : list Message.t) (u : Message.t) :
  Message.role u = Role.user ->
  assistant_messages (l ++ [u]) = assistant_messages l.
Proof.
  intros H. unfold assistant_messages, is_assistant.
  rewrite filter_app. cbn [filter]. rewrite H. apply app_nil_r.
Qed.

(** C4. A [sendMessage] leaves the title of every session that already has
    messages as it is, and that of every session other than its target as
    well; the title of a target without messages becomes the leading 30
    characters of the content. Sessions are taken by identity. *)
Theorem sendMessage_title (env : Env) (content : string) (w : World)
  (i : string) (s : ChatSession.t) :
  find_session i (sessions (app w)) = Some s ->
  let w' := snd (sendMessage env content w) in
  exists s' : ChatSession.t,
    find_session i (sessions (app w')) = Some s'
    /\ (ChatSession.messages s <> [] ->
        ChatSession.title s' = ChatSession.title s)
    /\ (i <> targetId env w -> ChatSession.title s' = ChatSession.title s)
    /\ (i = targetId env w -> ChatSession.messages s = [] ->
        ChatSession.title s' = slice content 0 30).
Proof.
  open_world w. unfold targetId, falsy, or_default. project. run_send.
  all: intros Hfind.
  all: match goal with
       | |- context [replace_session ?T _] =>
           destruct (string_dec i T) as [->|Hother]
       end.
  (* the session is the target of the call *)
  all: try (match goal with
            | H : find_session ?T ?l = None, H' : find_session ?T ?l = Some _
              |- _ => rewrite H in H'; discriminate H'
            end).
  all: try (match goal with
            | H : find_session ?T ?l = Some _,
              H' : find_session ?T ?l = Some _
              |- _ => rewrite H in H'; inversion H'; subst; clear H'
            end;
            name_found; lookup; eexists; split; [reflexivity|]; project;
            match goal with
            | |- context [(List.length ?m =? 0)%nat] => destruct m
            end; project;
            repeat split; intros; congruence).
  (* any other session *)
  all: name_found;
    rewrite ?find_session_replace_other by (auto; reflexivity);
    rewrite ?find_session_skip by (cbn [ChatSession.id]; congruence);
    match goal with
    | H : find_session ?i ?l = Some _ |- context [find_session ?i ?l] =>
        rewrite H
    end;
    eexists; split; [reflexivity|]; repeat split; intros; congruence.
Qed.

(** *** What a [sendMessage] writes and asks *)

(** The rows written by a [sendMessage]: the created session, when one is
    created and a user is known, and then, only when the completion
    succeeds, the final session with both new messages. *)
Lemma sendMessage_upserts (env : Env) (content : string) (w : World) :
  let i := targetId env w in
  let w' := snd (sendMessage env content w) in
  exists created_rows final_rows : list Row,
    upserts (emitted w w') = (created_rows ++ final_rows)%list
    /\ created_rows =
       (if falsy (currentSessionId (app w)) then
          match getUser_at env (n_auth w) with
          | Some uid =>
              [{| row_id := i;
                  row_user_id := uid;
                  row_title := slice content 0 30 ++ "...";
                  row_messages := [];
                  row_updated_at := now_at env (S (n_clock w)) |}]
          | None => []
          end
        else [])
    /\ match gemini_at env (n_gemini w) with
       | inl _ => final_rows = []
       | inr text =>
           (List.length final_rows <= 1)%nat
           /\ Forall
                (fun r =>
                   row_id r = i
                   /\ exists u a : Message.t,
                       row_messages r =
                       (messages_of i (sessions (app w)) ++ [u; a])%list
                       /\ Message.role u = Role.user
                       /\ Message.content u = content
                       /\ Message.role a = Role.assistant
                       /\ Message.content a = text)
                final_rows
       end.
Proof.
  open_world w. unfold targetId, messages_of, falsy, or_default. project.
  run_send.
  all: name_found; read_emitted.
  all: rewrite ?upserts_app;
    repeat match goal with U : upserts _ = _ |- _ => rewrite U; clear U end;
    cbn [upserts flat_map app]; project; rewrite ?app_nil_l.
  all: eexists; eexists; split; [|split; [reflexivity|]].
  all: try reflexivity.
  all: match goal with
       | |- context [match getUser_at ?e ?n with _ => _ end] =>
           destruct (getUser_at e n)
       end.
  all: split; [cbn [List.length]; lia|].
  all: repeat constructor; cbn [row_id row_messages]; auto.
  all: eexists; eexists; rewrite <- ?app_assoc; repeat split.
Qed.

(** A [sendMessage] always resolves, with the loading flag down, and
    detaches nothing. *)
Lemma sendMessage_returns (env : Env) (content : string) (w : World) :
  let w' := snd (sendMessage env content w) in
  fst (sendMessage env content w) = Returned tt
  /\ isLoading (app w') = false
  /\ pending w' = pending w.
Proof.
  open_world w. run_send. all: repeat split.
Qed.

(** When the completion client rejects, the rejection is logged and the
    assistant messages of every session are those it had. *)
Lemma sendMessage_rejected (env : Env) (content : string) (w : World)
  (err : string) :
  gemini_at env (n_gemini w) = inl err ->
  let w' := snd (sendMessage env content w) in
  In (EConsoleError [err]) (emitted w w')
  /\ forall i : string,
      assistant_messages (messages_of i (sessions (app w'))) =
      assistant_messages (messages_of i (sessions (app w))).
Proof.
  open_world w. unfold messages_of. project. run_send.
  all: intros Herr; try discriminate Herr.
  all: injection Herr as ->.
  all: split;
    [ read_emitted; rewrite ?in_app_iff; cbn [In]; auto 6 |].
  all: intros i;
    match goal with
    | |- context [replace_session ?T _] =>
        destruct (string_dec i T) as [->|Hother]
    end.
  all: name_found.
  (* the target *)
  all: try (lookup;
            rewrite ?assistant_messages_user by reflexivity; reflexivity).
  (* any other session *)
  all: rewrite ?find_session_replace_other by (auto; reflexivity);
    rewrite ?find_session_skip by (cbn [ChatSession.id]; congruence);
    reflexivity.
Qed.

(** C8 (amended). A [sendMessage] calls the completion client exactly once.
    The history it passes is the message sequence of the target session as
    already extended with the new user message, and the second argument is
    the new content. *)
Theorem sendMessage_completion_input (env : Env) (content : string)
  (w : World) :
  let i := targetId env w in
  let w' := snd (sendMessage env content w) in
  exists u : Message.t,
    Message.role u = Role.user
    /\ Message.content u = content
    /\ gemini_calls (emitted w w') =
       [((messages_of i (sessions (app w)) ++ [u])%list, content)].
Proof.
  open_world w. unfold targetId, messages_of, falsy, or_default. project.
  run_send.
  all: name_found; read_emitted.
  all: rewrite ?gemini_calls_app;
    repeat match goal with G : gemini_calls _ = _ |- _ => rewrite G; clear G end;
    cbn [gemini_calls flat_map app].
  all: eexists; split; [|split]; [| |reflexivity]; reflexivity.
Qed.

(** C3. Whatever the completion client does, the loading flag is down when
    [sendMessage] is over. When the client rejects, no session gains an
    assistant message, and no row written by the call carries one. *)
Theorem sendMessage_completion_failure (env : Env) (content : string)
  (w : World) :
  let w' := snd (sendMessage env content w) in
  isLoading (app w') = false
  /\ forall err : string,
      gemini_at env (n_gemini w) = inl err ->
      (forall i : string,
          assistant_messages (messages_of i (sessions (app w'))) =
          assistant_messages (messages_of i (sessions (app w))))
      /\ Forall (fun r => assistant_messages (row_messages r) = [])
           (upserts (emitted w w')).
Proof.
  cbv zeta. split; [apply sendMessage_returns|].
  intros err Herr. split.
  - apply (sendMessage_rejected env content w err Herr).
  - destruct (sendMessage_upserts env content w)
      as (created & final & Hrows & Hcreated & Hfinal).
    rewrite Herr in Hfinal. rewrite Hrows, Hfinal, app_nil_r, Hcreated.
    destruct (falsy (currentSessionId (app w))); [|constructor].
    destruct (getUser_at env (n_auth w)); repeat constructor.
Qed.

(** C10. The rows a [sendMessage] writes. When the completion client
    rejects, the only row is that of the session the call created, if it
    created one, written with an empty message sequence; on a session that
    was current nothing is written, and no row carries the user message.
    The final session is written only when the client answers. No save is
    left detached. *)
Theorem sendMessage_persistence (env : Env) (content : string) (w : World) :
  let i := targetId env w in
  let w' := snd (sendMessage env content w) in
  let created_rows :=
    if falsy (currentSessionId (app w)) then
      match getUser_at env (n_auth w) with
      | Some uid =>
          [{| row_id := i;
              row_user_id := uid;
              row_title := slice content 0 30 ++ "...";
              row_messages := [];
              row_updated_at := now_at env (S (n_clock w)) |}]
      | None => []
      end
    else [] in
  pending w' = pending w
  /\ match gemini_at env (n_gemini w) with
     | inl _ =>
         upserts (emitted w w') = created_rows
         /\ (falsy (currentSessionId (app w)) = false ->
             upserts (emitted w w') = [])
         /\ Forall (fun r => row_messages r = []) (upserts (emitted w w'))
     | inr text =>
         exists final_rows : list Row,
           upserts (emitted w w') = (created_rows ++ final_rows)%list
           /\ (List.length final_rows <= 1)%nat
           /\ Forall
                (fun r =>
                   row_id r = i
                   /\ exists u a : Message.t,
                       row_messages r =
                       (messages_of i (sessions (app w)) ++ [u; a])%list
                       /\ Message.role u = Role.user
                       /\ Message.content u = content
                       /\ Message.role a = Role.assistant
                       /\ Message.content a = text)
                final_rows
     end.
Proof.
  cbv zeta. split; [apply sendMessage_returns|].
  destruct (sendMessage_upserts env content w)
    as (created & final & Hrows & Hcreated & Hfinal).
  cbv zeta in Hcreated, Hfinal.
  destruct (gemini_at env (n_gemini w)) as [err|text].
  - rewrite Hrows, Hfinal, app_nil_r, Hcreated.
    split; [reflexivity|]. split.
    + intros Hcur. now rewrite Hcur.
    + destruct (falsy (currentSessionId (app w))); [|constructor].
      destruct (getUser_at env (n_auth w)); repeat constructor.
  - exists final. rewrite <- Hcreated. destruct Hfinal. auto.
Qed.

(** ** Creating a session *)

(** C7 (amended). [createSession] draws a fresh identity, builds a session
    without messages, titled [New Chat] and stamped with the clock, puts it
    in front of the list, makes it current and starts its save without
    awaiting it. The creation inside [sendMessage] does the same with two
    differences: the title is the leading 30 characters of the content
    followed by three dots, and the save is awaited, so that the write has
    happened when the creation is over and nothing is left detached. *)
Theorem session_creation (env : Env) (content : string) (w : World) :
  creation_per_spec env w (snd (createSession env w))
  /\ let r := createForMessage env (sessions (app w)) content w in
     let w' := snd r in
     exists n : ChatSession.t,
       fst r = Returned (ChatSession.id n)
       /\ ChatSession.id n = randomUUID_at env (n_uuid w)
       /\ ChatSession.messages n = []
       /\ ChatSession.title n = slice content 0 30 ++ "..."
       /\ ChatSession.updatedAt n = now_at env (n_clock w)
       /\ sessions (app w') = n :: sessions (app w)
       /\ currentSessionId (app w') = Some (ChatSession.id n)
       /\ pending w' = pending w
       /\ upserts (emitted w w') =
          match getUser_at env (n_auth w) with
          | Some uid =>
              [{| row_id := ChatSession.id n;
                  row_user_id := uid;
                  row_title := ChatSession.title n;
                  row_messages := [];
                  row_updated_at := now_at env (S (n_clock w)) |}]
          | None => []
          end.
Proof.
  split.
  - unfold creation_per_spec, createSession.
    rewrite handleNewChat_run. project.
    eexists.
    repeat split; try reflexivity.
    unfold emitted. project. now rewrite skipn_all.
  - open_world w. unfold_caller. project. step_save.
    eexists. repeat split; try reflexivity.
    read_emitted. rewrite ?app_nil_r. exact Uevs.
Qed.

(** ** Where the specification and the handlers part *)

(** C1, as stated, fails on a content of 40 characters: the session ends
    with the leading 30 characters as its title, and no ellipsis. *)
Lemma sendMessage_long_title_counterexample :
  falsy (currentSessionId (app initialWorld)) = true
  /\ String.length long_content = 40%nat
  /\ option_map ChatSession.title
       (find_session "id-0"
          (sessions (app (snd (sendMessage env_answers long_content
                                 initialWorld))))) =
     Some "Write a Go HTTP server with TL"
  /\ title_per_spec long_content = "Write a Go HTTP server with TL..."
  /\ option_map ChatSession.title
       (find_session "id-0"
          (sessions (app (snd (sendMessage env_answers long_content
                                 initialWorld))))) <>
     Some (title_per_spec long_content).
Proof.
  repeat split; try reflexivity.
  vm_compute. discriminate.
Qed.

(** C7, as stated, fails on the creation inside [sendMessage]: the title is
    derived from the content, and the save has been awaited (a row is
    written, nothing is detached). *)
Lemma createForMessage_counterexample :
  option_map ChatSession.title
    (hd_error
       (sessions (app (snd (createForMessage env_answers [] short_content
                              initialWorld))))) =
  Some "Write a Go HTTP server..."
  /\ pending (snd (createForMessage env_answers [] short_content
                     initialWorld)) = []
  /\ List.length
       (upserts
          (emitted initialWorld
             (snd (createForMessage env_answers [] short_content
                     initialWorld)))) = 1%nat
  /\ ~ creation_per_spec env_answers initialWorld
        (snd (createForMessage env_answers [] short_content initialWorld)).
Proof.
  repeat split; try reflexivity.
  intros (n & _ & _ & _ & _ & _ & _ & Hpending & _).
  vm_compute in Hpending. discriminate Hpending.
Qed.

(** C8, as stated, fails on a session with two messages: the history
    passed to the completion client has three, the last one being the new
    user message. *)
Lemma sendMessage_completion_input_counterexample :
  messages_of (targetId env_answers world_AB) (sessions (app world_AB)) =
  [sample_question; sample_answer]
  /\ gemini_calls
       (emitted world_AB (snd (sendMessage env_answers "next" world_AB))) =
     [([sample_question; sample_answer;
        {| Message.id := "id-0"; Message.role := Role.user;
           Message.content := "next"; Message.timestamp := 1000 |}],
       "next")]
  /\ ~ completion_input_per_spec env_answers "next" world_AB.
Proof.
  repeat split; try reflexivity.
  unfold completion_input_per_spec. vm_compute. discriminate.
Qed.


(** ** Instances *)

Lemma sendMessage_first_title_witness :
  falsy (currentSessionId (app initialWorld)) = true
  /\ find_session "id-0" (sessions (app initialWorld)) = None
  /\ exists s : ChatSession.t,
       find_session "id-0"
         (sessions (app (snd (sendMessage env_answers short_content
                                initialWorld)))) = Some s
       /\ ChatSession.title s = short_content.
Proof.
  split; [reflexivity|]. split; [reflexivity|].
  destruct (sendMessage_first_title env_answers short_content initialWorld)
    as (s & Hfind & _ & _ & Hshort & _); [reflexivity | reflexivity |].
  exists s. split; [exact Hfind|].
  apply Hshort. vm_compute. lia.
Defined.


Lemma sendMessage_completion_failure_witness :
  gemini_at env_rejects (n_gemini world_AB) = inl "503"
  /\ isLoading
       (app (snd (sendMessage env_rejects "next" world_AB))) = false
  /\ assistant_messages
       (messages_of "A"
          (sessions (app (snd (sendMessage env_rejects "next" world_AB))))) =
     [sample_answer]
  /\ Forall (fun r => assistant_messages (row_messages r) = [])
       (upserts
          (emitted world_AB (snd (sendMessage env_rejects "next" world_AB)))).
Proof.
  destruct (sendMessage_completion_failure env_rejects "next" world_AB)
    as [Hloading Hrejected].
  destruct (Hrejected "503" eq_refl) as [Hsessions Hrows].
  split; [reflexivity|]. split; [exact Hloading|].
  split; [exact (Hsessions "A") | exact Hrows].
Defined.

Lemma sendMessage_title_witness :
  find_session "A" (sessions (app world_AB)) = Some session_A
  /\ ChatSession.messages session_A <> []
  /\ exists s' : ChatSession.t,
       find_session "A"
         (sessions (app (snd (sendMessage env_answers "next" world_AB)))) =
       Some s'
       /\ ChatSession.title s' = "hello".
Proof.
  assert (Hfind : find_session "A" (sessions (app world_AB)) = Some session_A)
    by reflexivity.
  assert (Hmessages : ChatSession.messages session_A <> [])
    by (vm_compute; discriminate).
  split; [exact Hfind|]. split; [exact Hmessages|].
  destruct (sendMessage_title env_answers "next" world_AB "A" session_A Hfind)
    as (s' & Hfind' & Hkept & _).
  exists s'. split; [exact Hfind' | exact (Hkept Hmessages)].
Defined.

(** ** The save and the event loop *)

(** X1. [saveSessionToSupabase] never rejects and never touches the React
    state. Without a signed-in user it calls nothing; with one it writes
    one row carrying the identity, title and messages of the session and
    the identity of the user; when that write fails, the error is logged
    and dropped. *)
Theorem saveSessionToSupabase_outcomes (env : Env) (s : ChatSession.t)
  (w : World) :
  let r := saveSessionToSupabase env s w in
  fst r = Returned tt
  /\ app (snd r) = app w
  /\ pending (snd r) = pending w
  /\ emitted w (snd r) =
     match getUser_at env (n_auth w) with
     | None => []
     | Some uid =>
         EUpsert {| row_id := ChatSession.id s;
                    row_user_id := uid;
                    row_title := ChatSession.title s;
                    row_messages := ChatSession.messages s;
                    row_updated_at := now_at env (n_clock w) |}
         :: match upsert_at env (n_upsert w) with
            | None => []
            | Some e => [EConsoleError ["Error saving to Supabase:"; e]]
            end
     end.
Proof.
  destruct w as [a tr pd nu nc na nup ns ng].
  unfold_handlers. project.
  destruct (getUser_at env na) as [uid|]; project.
  - destruct (upsert_at env nup) as [e|]; project.
    all: repeat split; read_emitted; reflexivity.
  - repeat split. read_emitted. reflexivity.
Qed.

(** X2. A session made by [createSession] stays in the list and current
    once its detached save has run, whatever the persistence answers: the
    save changes nothing in the React state. With a signed-in user one row
    is written, titled [New Chat] and without messages; without one,
    none. *)
Theorem createSession_then_settle (env : Env) (w : World) :
  pending w = [] ->
  let w1 := snd (createSession env w) in
  let w2 := snd (settle env w1) in
  fst (settle env w1) = Returned tt
  /\ app w2 = app w1
  /\ pending w2 = []
  /\ currentSession (app w2) = hd_error (sessions (app w2))
  /\ upserts (emitted w w2) =
     match getUser_at env (n_auth w) with
     | Some uid =>
         [{| row_id := randomUUID_at env (n_uuid w);
             row_user_id := uid;
             row_title := "New Chat";
             row_messages := [];
             row_updated_at := now_at env (S (n_clock w)) |}]
     | None => []
     end.
Proof.
  intros Hpending. unfold createSession. rewrite handleNewChat_run.
  unfold settle. project. rewrite Hpending.
  cbn [List.app run_tasks run_task]. unfold bind, ret.
  step_save.
  repeat split.
  - unfold currentSession. project. now rewrite find_session_head.
  - read_emitted. now rewrite ?app_nil_r.
Qed.

Lemma createSession_then_settle_witness :
  pending initialWorld = []
  /\ List.length
       (upserts
          (emitted initialWorld
             (snd (settle env_answers
                     (snd (createSession env_answers initialWorld)))))) =
     1%nat.
Proof.
  split; [reflexivity|].
  destruct (createSession_then_settle env_answers initialWorld eq_refl)
    as (_ & _ & _ & _ & Hrows).
  rewrite Hrows. reflexivity.
Defined.

(** ** Signing in *)

Lemma or_default_nonempty (x : option string) (d : string) :
  d <> EmptyString -> or_default x d <> EmptyString.
Proof.
  intros Hd. unfold or_default. destruct x as [s|]; auto.
  destruct (String.eqb_spec s EmptyString); auto.
Qed.

(** X3. The user set on a signed-in event, by the listener as by the
    check made on mount, has as name the [full_name] of the auth session
    when it is present and not empty, and [User] when it is absent or
    empty, so that the name is never empty; the email is the one of the
    auth session, and empty when absent. The effect on [user] that runs
    next keeps that user. The listener itself leaves sessions and
    selection as they are (the effect that follows may replace them). *)
Theorem signed_in_user_name (env : Env) (session : AuthSession) (w : World) :
  snd (onInitialSession (Some session) w) =
  snd (onAuthStateChange (Some session) w)
  /\ let w' := snd (onAuthStateChange (Some session) w) in
     exists u : User.t,
       user (app w') = Some u
       /\ user (app (snd (signedIn env session w))) = Some u
       /\ User.name u <> EmptyString
       /\ (forall n : string,
             auth_full_name session = Some n -> n <> EmptyString ->
             User.name u = n)
       /\ (auth_full_name session = Some EmptyString ->
           User.name u = "User")
       /\ (auth_full_name session = None -> User.name u = "User")
       /\ (forall e : string,
             auth_email session = Some e -> User.email u = e)
       /\ (auth_email session = None -> User.email u = EmptyString)
       /\ sessions (app w') = sessions (app w)
       /\ currentSessionId (app w') = currentSessionId (app w).
Proof.
  split; [reflexivity|].
  open_world w. unfold_handlers. project.
  eexists. split; [reflexivity|]. cbn [User.name User.email].
  split.
  { case_answers; [reflexivity|].
    match goal with
    | |- context [List.length ?d] => destruct d as [|first rest]
    end; [reflexivity|].
    cbn [List.length Nat.ltb Nat.leb andb nth_error].
    match goal with
    | |- context [falsy ?c] => destruct (falsy c)
    end; reflexivity. }
  split; [apply or_default_nonempty; discriminate|].
  repeat split.
  - intros n Hn Hne. rewrite Hn. unfold or_default.
    destruct (String.eqb_spec n EmptyString); congruence.
  - intros Hn. now rewrite Hn.
  - intros Hn. now rewrite Hn.
  - intros e He. rewrite He. unfold or_default.
    destruct (String.eqb_spec e EmptyString); congruence.
  - intros He. now rewrite He.
Qed.

(** ** The sidebar on small screens *)

(** X4. Below 768 pixels of width, starting a chat, selecting a session and
    opening the workspace all close the sidebar; from 768 pixels on they
    leave it as it is. A resize closes it below 768 pixels and opens it
    from 768 on. *)
Theorem sidebar_follows_width (env : Env) (id : string) (w : World) :
  (innerWidth env < 768 ->
   isSidebarOpen (app (snd (createSession env w))) = false
   /\ isSidebarOpen (app (snd (selectSession env id w))) = false
   /\ isSidebarOpen (app (snd (onOpenWorkspace env w))) = false
   /\ isSidebarOpen (app (snd (handleResize env w))) = false)
  /\ (768 <= innerWidth env ->
      isSidebarOpen (app (snd (createSession env w))) = isSidebarOpen (app w)
      /\ isSidebarOpen (app (snd (selectSession env id w))) =
         isSidebarOpen (app w)
      /\ isSidebarOpen (app (snd (onOpenWorkspace env w))) =
         isSidebarOpen (app w)
      /\ isSidebarOpen (app (snd (handleResize env w))) = true).
Proof.
  unfold createSession. rewrite handleNewChat_run.
  open_world w. unfold onOpenWorkspace, handleResize.
  unfold_handlers. project.
  split; intros Hw.
  - apply Z.ltb_lt in Hw. rewrite Hw. repeat split.
  - apply Z.ltb_ge in Hw. rewrite Hw. repeat split.
Qed.

Lemma sidebar_follows_width_witness :
  768 <= innerWidth env_answers
  /\ isSidebarOpen (app (snd (handleResize env_answers world_AB))) = true.
Proof.
  assert (Hw : 768 <= innerWidth env_answers) by (vm_compute; discriminate).
  split; [exact Hw|].
  destruct (sidebar_follows_width env_answers "B" world_AB) as [_ Hwide].
  destruct (Hwide Hw) as (_ & _ & _ & Hresize). exact Hresize.
Defined.

(** ** What a [sendMessage] keeps *)

Lemma replace_session_ids (i : string) (r : ChatSession.t)
  (l : list ChatSession.t) :
  ChatSession.id r = i ->
  map ChatSession.id (map (replace_session i r) l) = map ChatSession.id l.
Proof.
  intros Hr. unfold replace_session.
  induction l as [|s l IH]; cbn [map]; [reflexivity|].
  rewrite IH. f_equal.
  destruct (String.eqb_spec (ChatSession.id s) i); congruence.
Qed.

Lemma replace_session_nth (i : string) (r s : ChatSession.t)
  (l : list ChatSession.t) (n : nat) :
  nth_error l n = Some s -> ChatSession.id s <> i ->
  nth_error (map (replace_session i r) l) n = Some s.
Proof.
  intros Hn Hs. rewrite nth_error_map, Hn. cbn [option_map].
  unfold replace_session.
  destruct (String.eqb_spec (ChatSession.id s) i); congruence.
Qed.

(** X5. A [sendMessage] neither reorders, drops nor duplicates sessions:
    the identities in the list are those it had, in the same order, with
    the identity of the created session in front when one is created.
    Every session other than the target stays in its place, unchanged. *)
Theorem sendMessage_keeps_order (env : Env) (content : string) (w : World) :
  let i := targetId env w in
  let w' := snd (sendMessage env content w) in
  let shift := if falsy (currentSessionId (app w)) then 1%nat else 0%nat in
  map ChatSession.id (sessions (app w')) =
  ((if falsy (currentSessionId (app w)) then [i] else [])
   ++ map ChatSession.id (sessions (app w)))%list
  /\ forall (n : nat) (s : ChatSession.t),
      nth_error (sessions (app w)) n = Some s ->
      ChatSession.id s <> i ->
      nth_error (sessions (app w')) (shift + n) = Some s.
Proof.
  open_world w. unfold targetId, falsy, or_default. project. run_send.
  all: name_found.
  all: split;
    [ rewrite ?replace_session_ids by reflexivity; reflexivity
    | intros n s' Hn Hs; cbn [Nat.add map nth_error];
      repeat (apply replace_session_nth; [|exact Hs]); exact Hn ].
Qed.

(** X6. Message sequences only grow under [sendMessage]: for every
    identity, the messages found under it afterwards are those found
    before, followed by what the call appended (nothing for a session
    that is not the target). *)
Theorem sendMessage_append_only (env : Env) (content : string) (w : World)
  (i : string) :
  let w' := snd (sendMessage env content w) in
  exists suffix : list Message.t,
    messages_of i (sessions (app w')) =
    (messages_of i (sessions (app w)) ++ suffix)%list
    /\ (i <> targetId env w -> suffix = []).
Proof.
  open_world w. unfold targetId, messages_of, falsy, or_default. project.
  run_send.
  all: match goal with
       | |- context [replace_session ?T _] =>
           destruct (string_dec i T) as [->|Hother]
       end.
  all: try match goal with
       | H : find_session ?T ?l = _, H' : find_session ?T ?l = _ |- _ =>
           rewrite H in H';
           first [discriminate H' | injection H' as <- | clear H']
       end.
  all: name_found.
  (* the target *)
  all: try (lookup; rewrite <- ?app_assoc; eexists;
            split; [reflexivity | intros H; now elim H]).
  (* any other session *)
  all: rewrite ?find_session_replace_other by (auto; reflexivity);
    rewrite ?find_session_skip by (cbn [ChatSession.id]; congruence);
    lookup; exists []; split; [now rewrite app_nil_r | reflexivity].
Qed.

(** X7. Without a signed-in user a [sendMessage] writes nothing, on either
    outcome of the completion, and leaves no save detached; the messages
    are appended in memory as usual. *)
Theorem sendMessage_signed_out (env : Env) (content : string) (w : World) :
  (forall k : nat, getUser_at env k = None) ->
  let i := targetId env w in
  let w' := snd (sendMessage env content w) in
  upserts (emitted w w') = []
  /\ pending w' = pending w
  /\ (selection_in_list (app w) ->
      messages_of i (sessions (app w')) <> messages_of i (sessions (app w))).
Proof.
  intros Hnone.
  open_world w.
  unfold selection_in_list, targetId, messages_of, falsy, or_default.
  project. run_send.
  all: name_found.
  all: split; [|split; [reflexivity|]].
  all: try (read_emitted; rewrite ?upserts_app;
            repeat match goal with
              | U : upserts _ = _ |- _ => rewrite U; clear U
              end;
            rewrite ?Hnone; reflexivity).
  all: intros Hex;
    try (destruct Hex as [Hex|Hex]; [discriminate Hex | now elim Hex]).
  all: lookup; rewrite <- ?app_assoc; intros Heq.
  all: try discriminate Heq.
  all: apply (f_equal (@List.length Message.t)) in Heq;
    rewrite ?length_app in Heq; cbn [List.length] in Heq; lia.
Qed.

Lemma sendMessage_signed_out_witness :
  (forall k : nat, getUser_at
                     {| randomUUID_at := sample_uuid;
                        now_at := fun n => Z.of_nat n;
                        getUser_at := fun _ => None;
                        upsert_at := fun _ => None;
                        select_at := fun _ => inr [];
                        gemini_at := fun _ => inr "ok";
                        innerWidth := 1280 |} k = None)
  /\ upserts
       (emitted world_AB
          (snd (sendMessage
                  {| randomUUID_at := sample_uuid;
                     now_at := fun n => Z.of_nat n;
                     getUser_at := fun _ => None;
                     upsert_at := fun _ => None;
                     select_at := fun _ => inr [];
                     gemini_at := fun _ => inr "ok";
                     innerWidth := 1280 |} "next" world_AB))) = [].
Proof.
  split; [reflexivity|].
  refine (proj1 (sendMessage_signed_out _ "next" world_AB _)).
  reflexivity.
Defined.

(** X8. In a state whose selection is coherent, every row a [sendMessage]
    writes is either the row of the session it has just created, without
    messages, or carries exactly the identity, title and messages of the
    target session as the list holds it when the call is over. Such a row
    is written whenever the completion answers and a user is signed in. *)
Theorem sendMessage_persists_what_it_shows (env : Env) (content : string)
  (w : World) :
  selection_in_list (app w) ->
  let i := targetId env w in
  let w' := snd (sendMessage env content w) in
  Forall
    (fun r =>
       row_messages r = []
       \/ exists s' : ChatSession.t,
           find_session i (sessions (app w')) = Some s'
           /\ row_id r = ChatSession.id s'
           /\ row_title r = ChatSession.title s'
           /\ row_messages r = ChatSession.messages s')
    (upserts (emitted w w'))
  /\ forall text uid : string,
      gemini_at env (n_gemini w) = inr text ->
      getUser_at env
        (if falsy (currentSessionId (app w)) then S (n_auth w)
         else n_auth w) = Some uid ->
      exists r : Row,
        In r (upserts (emitted w w'))
        /\ row_user_id r = uid
        /\ row_messages r <> [].
Proof.
  open_world w. unfold selection_in_list, targetId, falsy, or_default.
  project. run_send.
  all: intros Hex; name_found;
    try (destruct Hex as [Hex|Hex]; [discriminate Hex | now elim Hex]).
  all: read_emitted; rewrite ?upserts_app;
    repeat match goal with U : upserts _ = _ |- _ => rewrite U; clear U end;
    cbn [upserts flat_map List.app].
  all: project; split.
  (* a row with messages is written *)
  all: try (intros text uid Hanswer Huser; discriminate Hanswer).
  all: try (intros text uid Hanswer Huser;
            rewrite Huser;
            eexists;
            split;
            [first [ left; reflexivity
                   | apply in_or_app; right; left; reflexivity ]|];
            split; [reflexivity|]; cbn [row_messages];
            intros Hnil; apply (f_equal (@List.length Message.t)) in Hnil;
            rewrite ?length_app in Hnil; cbn [List.length] in Hnil; lia).
  (* what the rows carry *)
  all: repeat match goal with
         | |- context [match getUser_at ?e ?n with _ => _ end] =>
             destruct (getUser_at e n)
         end;
    cbn [List.app]; repeat (apply Forall_cons || apply Forall_nil).
  all: first [ left; reflexivity
             | right; lookup; eexists; repeat split;
               cbn [row_messages ChatSession.messages];
               rewrite <- ?app_assoc; reflexivity ].
Qed.

Lemma sendMessage_persists_what_it_shows_witness :
  selection_in_list (app world_AB)
  /\ exists r : Row,
      In r (upserts
              (emitted world_AB
                 (snd (sendMessage env_answers "next" world_AB))))
      /\ row_user_id r = "owner"
      /\ row_messages r <> [].
Proof.
  assert (H : selection_in_list (app world_AB))
    by (right; vm_compute; discriminate).
  split; [exact H|].
  exact (proj2 (sendMessage_persists_what_it_shows env_answers "next"
                  world_AB H) "package main" "owner" eq_refl eq_refl).
Defined.

(** X9. When the current identity names no session of the list, a
    [sendMessage] changes no session in memory, whatever the completion
    answers, and no session is current afterwards either. The completion
    client is still called, with the new message as the whole history, and
    when it answers and a user is signed in, a session of that identity is
    written with the two messages and the leading 30 characters of the
    content as title. *)
Theorem sendMessage_dangling (env : Env) (content : string) (w : World) :
  falsy (currentSessionId (app w)) = false ->
  find_session (targetId env w) (sessions (app w)) = None ->
  let w' := snd (sendMessage env content w) in
  sessions (app w') = sessions (app w)
  /\ currentSession (app w') = None
  /\ (exists u : Message.t,
         Message.role u = Role.user
         /\ Message.content u = content
         /\ gemini_calls (emitted w w') = [([u], content)])
  /\ match gemini_at env (n_gemini w) with
     | inl _ => upserts (emitted w w') = []
     | inr text =>
         match getUser_at env (n_auth w) with
         | None => upserts (emitted w w') = []
         | Some uid =>
             exists (u a : Message.t) (t : Z),
               Message.content u = content
               /\ Message.content a = text
               /\ upserts (emitted w w') =
                  [{| row_id := targetId env w;
                      row_user_id := uid;
                      row_title := slice content 0 30;
                      row_messages := [u; a];
                      row_updated_at := t |}]
         end
     end.
Proof.
  open_world w. unfold currentSession, targetId, falsy, or_default.
  project. run_send.
  all: intros Hcur Hnone; try discriminate Hcur; try discriminate Hnone.
  all: repeat match goal with
         | H : find_session ?i ?l = None
           |- context [map (replace_session ?i ?r) ?l] =>
             rewrite (replace_session_absent i r l H)
         end.
  all: split; [reflexivity|]; split; [assumption|].
  all: read_emitted; rewrite ?upserts_app, ?gemini_calls_app;
    repeat match goal with U : upserts _ = _ |- _ => rewrite U; clear U end;
    repeat match goal with
      | G : gemini_calls _ = _ |- _ => rewrite G; clear G
      end;
    cbn [upserts gemini_calls flat_map List.app].
  all: split; [eexists; repeat split|].
  all: try reflexivity.
  all: destruct (getUser_at env _); [|reflexivity].
  all: eexists; eexists; eexists; split; [|split]; [| |reflexivity];
    reflexivity.
Qed.

Lemma sendMessage_dangling_witness :
  falsy (currentSessionId (app world_dangling)) = false
  /\ find_session (targetId env_answers world_dangling)
       (sessions (app world_dangling)) = None
  /\ sessions (app (snd (sendMessage env_answers "next" world_dangling))) =
     sessions (app world_dangling).
Proof.
  split; [reflexivity|]. split; [reflexivity|].
  exact (proj1 (sendMessage_dangling env_answers "next" world_dangling
                  eq_refl eq_refl)).
Defined.

(** ** Captured values *)

(** X10. [handleSendMessage] builds on the session of the list it captured,
    not on the one the list holds when it runs: afterwards the session of
    the current identity has the messages of the captured session followed
    by the new ones, so that whatever the live session had beyond the
    captured one is dropped. *)
Theorem handleSendMessage_captured_list (env : Env)
  (captured : list ChatSession.t) (i content : string) (w : World)
  (t : ChatSession.t) :
  i <> EmptyString ->
  find_session i captured = Some t ->
  find_session i (sessions (app w)) <> None ->
  let w' := snd (handleSendMessage env captured (Some i) content w) in
  exists (s' : ChatSession.t) (l : list Message.t),
    find_session i (sessions (app w')) = Some s'
    /\ ChatSession.messages s' = (ChatSession.messages t ++ l)%list
    /\ round_trip content (gemini_at env (n_gemini w)) l.
Proof.
  open_world w. unfold round_trip. run_send.
  all: intros Hne Hcaptured Hlive; try discriminate Hcaptured.
  all: try match goal with
       | H : String.eqb _ EmptyString = true |- _ =>
           apply String.eqb_eq in H; congruence
       end.
  all: injection Hcaptured as <-; name_found; lookup.
  all: match goal with
       | |- context [match find_session ?j ?l with _ => _ end] =>
           destruct (find_session j l); [|now elim Hlive]
       end.
  all: eexists; eexists; split; [reflexivity|]; project;
    rewrite <- ?app_assoc; split; [reflexivity|].
  all: repeat eexists.
Qed.

Lemma handleSendMessage_captured_list_witness :
  "A" <> EmptyString
  /\ find_session "A" (sessions (app world_AB)) <> None
  /\ exists (s' : ChatSession.t) (l : list Message.t),
       find_session "A"
         (sessions
            (app (snd (handleSendMessage env_answers stale_sessions
                         (Some "A") "next" world_AB)))) = Some s'
       /\ ChatSession.messages s' = (sample_question :: l)%list
       /\ round_trip "next" (inr "package main") l.
Proof.
  assert (Hne : "A" <> EmptyString) by discriminate.
  assert (Hlive : find_session "A" (sessions (app world_AB)) <> None)
    by (vm_compute; discriminate).
  split; [exact Hne|]. split; [exact Hlive|].
  exact (handleSendMessage_captured_list env_answers stale_sessions "A"
           "next" world_AB _ Hne eq_refl Hlive).
Defined.

(** X11. A fetch that was started while no session was selected and that
    resolves after a [createSession] replaces the list by the fetched one:
    the created session is in the list afterwards only if the fetch
    returned it. The selection moves to the first fetched session; when
    nothing was fetched it stays on the created session, which the list no
    longer has. A failed fetch changes nothing. *)
Theorem createSession_then_fetch (env : Env) (w : World) :
  falsy (currentSessionId (app w)) = true ->
  let i := randomUUID_at env (n_uuid w) in
  let w1 := snd (createSession env w) in
  let w2 := snd (fetchSessions env (currentSessionId (app w)) w1) in
  match select_at env (n_select w) with
  | inl _ => app w2 = app w1
  | inr [] =>
      sessions (app w2) = []
      /\ currentSessionId (app w2) = Some i
      /\ (i <> EmptyString -> ~ selection_in_list (app w2))
  | inr (first :: rest) =>
      sessions (app w2) = first :: rest
      /\ currentSessionId (app w2) = Some (ChatSession.id first)
  end.
Proof.
  intros Hcur. unfold createSession. rewrite handleNewChat_run.
  unfold_handlers. project.
  destruct (select_at env (n_select w)) as [err|[|first rest]]; project.
  - reflexivity.
  - repeat split. intros Hi [H|H].
    + unfold falsy in H. project. apply String.eqb_eq in H. congruence.
    + now apply H.
  - cbn [List.length Nat.ltb Nat.leb andb nth_error]. rewrite Hcur.
    project. split; reflexivity.
Qed.

Lemma createSession_then_fetch_witness :
  falsy (currentSessionId (app initialWorld)) = true
  /\ ~ selection_in_list
        (app (snd (fetchSessions env_answers
                     (currentSessionId (app initialWorld))
                     (snd (createSession env_answers initialWorld))))).
Proof.
  split; [reflexivity|].
  destruct (createSession_then_fetch env_answers initialWorld eq_refl)
    as (_ & _ & Hbroken).
  apply Hbroken. discriminate.
Defined.

(** ** What is on screen after a [sendMessage] *)

Lemma length_snoc_nonzero {A} (l : list A) (x : A) :
  (List.length (l ++ [x]) =? 0)%nat = false.
Proof.
  rewrite length_app, Nat.add_comm. reflexivity.
Qed.

Lemma slice_0_30_empty (s : string) :
  slice s 0 30 = EmptyString <-> s = EmptyString.
Proof.
  rewrite slice_0_30. destruct s; cbn [substring]; split; congruence.
Qed.

(** X12. In a state whose selection is coherent, with a user signed in and
    the chat view open, the page shows the conversation of the target
    session once a [sendMessage] is over, whatever the completion
    answered, and the input is enabled again. *)
Theorem sendMessage_shows_conversation (env : Env) (content : string)
  (w : World) (u : User.t) :
  selection_in_list (app w) ->
  user (app w) = Some u ->
  view (app w) = AppView.chat ->
  let w' := snd (sendMessage env content w) in
  screen (app w') = ConversationScreen
  /\ inputDisabled (app w') = false
  /\ currentSession (app w') =
     find_session (targetId env w) (sessions (app w')).
Proof.
  open_world w.
  unfold selection_in_list, screen, inputDisabled, currentSession, targetId,
    falsy, or_default.
  project. run_send.
  all: intros Hex Huser Hview; subst; name_found;
    try (destruct Hex as [Hex|Hex]; [discriminate Hex | now elim Hex]).
  all: lookup; rewrite ?length_snoc_nonzero; repeat split.
Qed.

Lemma sendMessage_shows_conversation_witness :
  selection_in_list (app world_AB)
  /\ view (app world_AB) = AppView.chat
  /\ screen (app (snd (sendMessage env_rejects "next" world_AB))) =
     ConversationScreen.
Proof.
  assert (H : selection_in_list (app world_AB))
    by (right; vm_compute; discriminate).
  split; [exact H|]. split; [reflexivity|].
  exact (proj1 (sendMessage_shows_conversation env_rejects "next" world_AB
                  _ H eq_refl eq_refl)).
Defined.

(** X13. After a first message sent with no session current, the header
    shows the leading 30 characters of the content. The handler does not
    reject an empty content: the session then has an empty title and the
    header falls back to [CodeGPT Assistant]. The identity drawn for the
    session is assumed not to be in use. *)
Theorem first_message_header (env : Env) (content : string) (w : World) :
  falsy (currentSessionId (app w)) = true ->
  find_session (randomUUID_at env (n_uuid w)) (sessions (app w)) = None ->
  let w' := snd (sendMessage env content w) in
  (content <> EmptyString ->
   headerTitle (app w') = slice content 0 30
   /\ headerTitle (app w') <> EmptyString)
  /\ (content = EmptyString -> headerTitle (app w') = "CodeGPT Assistant").
Proof.
  open_world w. unfold headerTitle, currentSession, falsy. project. run_send.
  all: intros Hcur Hfresh; try discriminate Hcur; try discriminate Hfresh.
  all: lookup; cbn [option_map]; project; unfold or_default.
  all: split; [intros Hne | intros ->; reflexivity].
  all: assert (Hslice : slice content 0 30 <> EmptyString)
    by (intros Hs; apply Hne; now apply slice_0_30_empty).
  all: destruct (String.eqb_spec (slice content 0 30) EmptyString);
    [contradiction | split; [reflexivity | assumption]].
Qed.

Lemma first_message_header_witness :
  falsy (currentSessionId (app initialWorld)) = true
  /\ find_session (randomUUID_at env_answers (n_uuid initialWorld))
       (sessions (app initialWorld)) = None
  /\ short_content <> EmptyString
  /\ headerTitle
       (app (snd (sendMessage env_answers short_content initialWorld))) =
     slice short_content 0 30.
Proof.
  assert (Hne : short_content <> EmptyString) by discriminate.
  split; [reflexivity|]. split; [reflexivity|]. split; [exact Hne|].
  exact (proj1 (proj1 (first_message_header env_answers short_content
                         initialWorld eq_refl eq_refl) Hne)).
Defined.

(** ** Sequences of messages *)

(** One [sendMessage] in a coherent state: the selection is coherent
    again, the next call is the next request to the completion client and
    has the same target, and the target has gained one round trip. *)
Lemma sendMessage_step (env : Env) (content : string) (w : World) :
  selection_in_list (app w) ->
  let i := targetId env w in
  let w' := snd (sendMessage env content w) in
  selection_in_list (app w')
  /\ n_gemini w' = S (n_gemini w)
  /\ (i <> EmptyString -> targetId env w' = i)
  /\ exists l : list Message.t,
      messages_of i (sessions (app w')) =
      (messages_of i (sessions (app w)) ++ l)%list
      /\ round_trip content (gemini_at env (n_gemini w)) l.
Proof.
  open_world w.
  unfold selection_in_list, targetId, messages_of, round_trip, falsy,
    or_default.
  project. run_send.
  all: intros Hex; name_found;
    try (destruct Hex as [Hex|Hex]; [discriminate Hex | now elim Hex]).
  all: split;
    [ first [left; reflexivity | right; lookup; discriminate] |].
  all: split; [reflexivity|].
  all: split;
    [ intros Hi;
      first
        [ reflexivity
        | match goal with
          | H : String.eqb _ EmptyString = true |- _ =>
              apply String.eqb_eq in H; contradiction
          end
        | match goal with
          | |- context [String.eqb ?T EmptyString] =>
              destruct (String.eqb_spec T EmptyString);
              [contradiction | reflexivity]
          end ] |].
  all: lookup; rewrite <- ?app_assoc; eexists; split; [reflexivity|].
  all: repeat eexists.
Qed.

(** X14. Two [sendMessage] calls in a row work on the same session: in a
    coherent state whose target identity is not empty, the target gains
    the round trip of the first call followed by that of the second, each
    with or without its assistant message according to the answer of the
    completion client. An unanswered user message stays in the history. *)
Theorem sendMessage_twice (env : Env) (c1 c2 : string) (w : World) :
  selection_in_list (app w) ->
  targetId env w <> EmptyString ->
  let i := targetId env w in
  let w1 := snd (sendMessage env c1 w) in
  let w2 := snd (sendMessage env c2 w1) in
  targetId env w1 = i
  /\ exists l1 l2 : list Message.t,
      messages_of i (sessions (app w2)) =
      (messages_of i (sessions (app w)) ++ l1 ++ l2)%list
      /\ round_trip c1 (gemini_at env (n_gemini w)) l1
      /\ round_trip c2 (gemini_at env (S (n_gemini w))) l2.
Proof.
  intros Hcoherent Hid. cbv zeta.
  destruct (sendMessage_step env c1 w Hcoherent)
    as (Hcoherent1 & Hnext & Hsame & l1 & Hfirst & Hround1).
  specialize (Hsame Hid).
  destruct (sendMessage_step env c2 _ Hcoherent1)
    as (_ & _ & _ & l2 & Hsecond & Hround2).
  rewrite Hsame, Hnext in *.
  split; [reflexivity|].
  exists l1, l2. rewrite Hsecond, Hfirst, app_assoc. auto.
Qed.

Lemma sendMessage_twice_witness :
  selection_in_list (app world_AB)
  /\ targetId env_answers world_AB <> EmptyString
  /\ targetId env_answers
       (snd (sendMessage env_answers "one" world_AB)) = "A".
Proof.
  assert (H : selection_in_list (app world_AB))
    by (right; vm_compute; discriminate).
  assert (Hid : targetId env_answers world_AB <> EmptyString)
    by (vm_compute; discriminate).
  split; [exact H|]. split; [exact Hid|].
  exact (proj1 (sendMessage_twice env_answers "one" "two" world_AB H Hid)).
Defined.

(** ** Titles *)

Lemma substring_0_length_le (n : nat) (s : string) :
  (String.length (substring 0 n s) <= n)%nat.
Proof.
  revert n. induction s as [|c s IH]; intros [|n]; cbn; try lia.
  specialize (IH n). lia.
Qed.

Lemma slice_0_30_bound (s : string) :
  (String.length (slice s 0 30) <= 30)%nat
  /\ prefix (slice s 0 30) s = true.
Proof.
  rewrite slice_0_30. split.
  - apply substring_0_length_le.
  - apply substring_0_prefix.
Qed.

(** X15. After a [sendMessage], every session of the list either has the
    title that the session of its identity had before, or has a title
    that is a prefix of the content of at most 30 characters: the title
    with three dots given at creation never stays in the list. *)
Theorem sendMessage_title_bound (env : Env) (content : string) (w : World)
  (i : string) (s' : ChatSession.t) :
  let w' := snd (sendMessage env content w) in
  find_session i (sessions (app w')) = Some s' ->
  (exists s : ChatSession.t,
      find_session i (sessions (app w)) = Some s
      /\ ChatSession.title s' = ChatSession.title s)
  \/ ((String.length (ChatSession.title s') <= 30)%nat
      /\ prefix (ChatSession.title s') content = true).
Proof.
  open_world w. run_send.
  all: match goal with
       | |- context [replace_session ?T _] =>
           destruct (string_dec i T) as [->|Hother]
       end.
  all: name_found.
  (* any other session *)
  all: try (rewrite ?find_session_replace_other by (auto; reflexivity);
            rewrite ?find_session_skip by (cbn [ChatSession.id]; congruence);
            intros Hfind; left; eexists; split; [exact Hfind | reflexivity]).
  (* the target *)
  all: lookup; intros Hfind; try discriminate Hfind;
    injection Hfind as <-; project.
  all: try (right; apply slice_0_30_bound).
  all: match goal with
       | |- context [(List.length ?m =? 0)%nat] => destruct m
       end; project;
    [ right; apply slice_0_30_bound
    | left; eexists; split; reflexivity ].
Qed.

Lemma sendMessage_title_bound_witness :
  exists s' : ChatSession.t,
    find_session "id-0"
      (sessions
         (app (snd (sendMessage env_answers long_content initialWorld)))) =
    Some s'
    /\ (String.length (ChatSession.title s') <= 30)%nat.
Proof.
  destruct (find_session "id-0"
              (sessions
                 (app (snd (sendMessage env_answers long_content
                              initialWorld))))) as [s'|] eqn:Hfound;
    [|vm_compute in Hfound; discriminate Hfound].
  exists s'. split; [reflexivity|].
  destruct (sendMessage_title_bound env_answers long_content initialWorld
              "id-0" s' Hfound) as [(s & Hfind & _)|[Hbound _]].
  - vm_compute in Hfind. discriminate Hfind.
  - exact Hbound.
Defined.
